(** * A shallow embedding of the 6502 core of package [cpu]

    The development follows the two source files of the package: the CPU
    record with its flag accessors, constructor, clock pulse [Tic] and the
    reset / interrupt entry points on one side, and the addressing-mode tokens
    with their parser [addrModeFromString] on the other.

    Go's [uint8], [uint16] and [uint64] are integers in [Z]; every wrap-around
    is written out with [wrap8] / [wrap16].  A Go [string] is a [string]; the
    named string type [addrMode] is a [string] too, as in the source.  A
    method with a pointer receiver is a function from the CPU record to the
    updated record; a run-time panic or a returned [error] is the [Err] case
    of [result]. *)

From Stdlib Require Import ZArith String List Bool Lia.
From stdpp Require Import base option list.

Local Open Scope string_scope.
Local Open Scope Z_scope.

(** ** Machine integers *)

Definition uint8_ok (z : Z) : Prop := 0 <= z < 256.
Definition uint16_ok (z : Z) : Prop := 0 <= z < 65536.

Definition wrap8 (z : Z) : Z := z mod 256.
Definition wrap16 (z : Z) : Z := z mod 65536.

(** [^x] on a [uint8]: all eight bits flipped. *)
Definition not8 (z : Z) : Z := Z.lxor z 255.

(** ** Results: Go errors and run-time panics *)

Inductive result (E A : Type) : Type :=
  | Ok (a : A)
  | Err (e : E).
Arguments Ok {E A} a.
Arguments Err {E A} e.

#[global] Instance result_ret {E} : MRet (result E) := fun _ a => Ok a.
#[global] Instance result_bind {E} : MBind (result E) := fun _ _ k r =>
  match r with
  | Ok a => k a
  | Err e => Err e
  end.

(** A Go [error] value carries its message. *)
Definition error : Type := string.

Inductive panic : Type :=
  | NilDereference      (* method call through a nil interface *)
  | NilFuncCall         (* call of a nil func value *)
  | IndexOutOfRange.    (* slice index out of range *)

(** [x.f()] through an interface or func value that may be nil. *)
Definition deref {A} (p : panic) (o : option A) : result panic A :=
  match o with
  | Some a => Ok a
  | None => Err p
  end.

(** [s[i]] on a slice. *)
Definition index {A} (s : list A) (i : Z) : result panic A :=
  deref IndexOutOfRange (s !! Z.to_nat i).

(** ** The bus interface

    [ReadWriter] is the only door to memory.  A read may change the device
    behind the bus (memory-mapped I/O), so every method threads the bus state;
    the two laws are the Go result types [uint8] and [uint16]. *)

Class ReadWriter (B : Type) : Type := {
  Read8 : B -> Z -> Z * B;
  Read16 : B -> Z -> Z * B;
  Write8 : B -> Z -> Z -> B;
  Read8_uint8 : forall b addr, uint8_ok (Read8 b addr).1;
  Read16_uint16 : forall b addr, uint16_ok (Read16 b addr).1
}.

(** ** Status flags *)

Definition flagCBit : Z := Z.shiftl 1 0. (* Carry flag *)
Definition flagZBit : Z := Z.shiftl 1 1. (* Zero flag *)
Definition flagIBit : Z := Z.shiftl 1 2. (* Interrupt Disable flag *)
Definition flagDBit : Z := Z.shiftl 1 3. (* Decimal Mode flag *)
Definition flagBBit : Z := Z.shiftl 1 4. (* Break Command flag *)
Definition flagUBit : Z := Z.shiftl 1 5. (* Unused *)
Definition flagVBit : Z := Z.shiftl 1 6. (* Overflow flag *)
Definition flagNBit : Z := Z.shiftl 1 7. (* Negative flag *)

(** ** Addressing modes: [type addrMode string] *)

Definition addrMode : Type := string.

Definition addrModeIMM : addrMode := "IMM".
Definition addrModeZP : addrMode := "ZP".
Definition addrModeABS : addrMode := "ABS".
Definition addrModeZPX : addrMode := "ZPX".
Definition addrModeZPY : addrMode := "ZPY".
Definition addrModeABSX : addrMode := "ABSX".
Definition addrModeABSY : addrMode := "ABSY".
Definition addrModeIND : addrMode := "IND".
Definition addrModeINDX : addrMode := "INDX".
Definition addrModeINDY : addrMode := "INDY".
Definition addrModeREL : addrMode := "REL".
Definition addrModeACC : addrMode := "ACC".
Definition addrModeIMP : addrMode := "IMP".

(** The thirteen modes, in the order of the [switch]. *)
Definition addrModes : list addrMode :=
  [addrModeIMM; addrModeZP; addrModeABS; addrModeZPX; addrModeZPY;
   addrModeABSX; addrModeABSY; addrModeIND; addrModeINDX; addrModeINDY;
   addrModeREL; addrModeACC; addrModeIMP].

(** The pair [(addrMode, error)] of the source; [None] is the nil error. *)
Definition addrModeFromString (s : string) : addrMode * option error :=
  if String.eqb s addrModeIMM then (addrModeIMM, None)
  else if String.eqb s addrModeZP then (addrModeZP, None)
  else if String.eqb s addrModeABS then (addrModeABS, None)
  else if String.eqb s addrModeZPX then (addrModeZPX, None)
  else if String.eqb s addrModeZPY then (addrModeZPY, None)
  else if String.eqb s addrModeABSX then (addrModeABSX, None)
  else if String.eqb s addrModeABSY then (addrModeABSY, None)
  else if String.eqb s addrModeIND then (addrModeIND, None)
  else if String.eqb s addrModeINDX then (addrModeINDX, None)
  else if String.eqb s addrModeINDY then (addrModeINDY, None)
  else if String.eqb s addrModeREL then (addrModeREL, None)
  else if String.eqb s addrModeACC then (addrModeACC, None)
  else if String.eqb s addrModeIMP then (addrModeIMP, None)
  else ("UNKNOWN", Some ("address mode couldn't be parsed from " ++ s)).

(** ** Instruction descriptors

    [operate] is a func value bound to the CPU it belongs to.  The record
    keeps the handler's identity in a type [H] of handler names ([None] is
    the nil func); what a handler does to the CPU is given by [callOp]
    below. *)

Module Instr.
Record instruction (H : Type) : Type := {
  name : string;
  operate : option H;
  addrMode : addrMode;
  cycles : Z
}.
Arguments name {H} _.
Arguments operate {H} _.
Arguments addrMode {H} _.
Arguments cycles {H} _.

(** The zero value, as [make([]instruction, n)] fills a slice. *)
Definition zero {H} : instruction H :=
  {| name := ""; operate := None; addrMode := ""; cycles := 0 |}.
End Instr.
Abbreviation instruction := Instr.instruction.

(** ** The CPU record *)

Record CPU (B H : Type) : Type := {
  regA : Z;
  regX : Z;
  regY : Z;
  sp : Z;
  pc : Z;
  status : Z;
  bus : option B;
  instructions : list (instruction H);
  fetched : Z;
  addrAbs : Z;
  addrRel : Z;
  opcode : Z;
  cycles : Z;
  clockCounter : Z
}.
Arguments regA {B H} _.
Arguments regX {B H} _.
Arguments regY {B H} _.
Arguments sp {B H} _.
Arguments pc {B H} _.
Arguments status {B H} _.
Arguments bus {B H} _.
Arguments instructions {B H} _.
Arguments fetched {B H} _.
Arguments addrAbs {B H} _.
Arguments addrRel {B H} _.
Arguments opcode {B H} _.
Arguments cycles {B H} _.
Arguments clockCounter {B H} _.

(** Field assignments [c.f = v]. *)

Definition set_status {B H} (c : CPU B H) (v : Z) : CPU B H :=
  {| regA := regA c; regX := regX c; regY := regY c; sp := sp c; pc := pc c;
     status := v; bus := bus c; instructions := instructions c;
     fetched := fetched c; addrAbs := addrAbs c; addrRel := addrRel c;
     opcode := opcode c; cycles := cycles c;
     clockCounter := clockCounter c |}.

Definition set_pc {B H} (c : CPU B H) (v : Z) : CPU B H :=
  {| regA := regA c; regX := regX c; regY := regY c; sp := sp c; pc := v;
     status := status c; bus := bus c; instructions := instructions c;
     fetched := fetched c; addrAbs := addrAbs c; addrRel := addrRel c;
     opcode := opcode c; cycles := cycles c;
     clockCounter := clockCounter c |}.

Definition set_bus {B H} (c : CPU B H) (v : option B) : CPU B H :=
  {| regA := regA c; regX := regX c; regY := regY c; sp := sp c; pc := pc c;
     status := status c; bus := v; instructions := instructions c;
     fetched := fetched c; addrAbs := addrAbs c; addrRel := addrRel c;
     opcode := opcode c; cycles := cycles c;
     clockCounter := clockCounter c |}.

Definition set_instructions {B H} (c : CPU B H) (v : list (instruction H)) : CPU B H :=
  {| regA := regA c; regX := regX c; regY := regY c; sp := sp c; pc := pc c;
     status := status c; bus := bus c; instructions := v;
     fetched := fetched c; addrAbs := addrAbs c; addrRel := addrRel c;
     opcode := opcode c; cycles := cycles c;
     clockCounter := clockCounter c |}.

Definition set_opcode {B H} (c : CPU B H) (v : Z) : CPU B H :=
  {| regA := regA c; regX := regX c; regY := regY c; sp := sp c; pc := pc c;
     status := status c; bus := bus c; instructions := instructions c;
     fetched := fetched c; addrAbs := addrAbs c; addrRel := addrRel c;
     opcode := v; cycles := cycles c; clockCounter := clockCounter c |}.

Definition set_cycles {B H} (c : CPU B H) (v : Z) : CPU B H :=
  {| regA := regA c; regX := regX c; regY := regY c; sp := sp c; pc := pc c;
     status := status c; bus := bus c; instructions := instructions c;
     fetched := fetched c; addrAbs := addrAbs c; addrRel := addrRel c;
     opcode := opcode c; cycles := v; clockCounter := clockCounter c |}.

(** ** The declarative opcode specification and the absent handlers

    Modelled from the spec: the opcode matrix consumed at construction is
    absent from the sources.  It is "a fixed 16x16 matrix of {mnemonic,
    addressing-mode-token, base-cycle-count} entries", one per byte value,
    the row being the high nibble of the opcode and the column the low one.
    It is a parameter of construction here. *)

Record matrixEntry : Type := {
  mnemonic : string;
  modeToken : string;
  baseCycles : Z
}.

Definition opcodeMatrix : Type := list (list matrixEntry).

(** Modelled from the spec: the addressing-mode resolver [doAddressMode], the
    bodies of the operation handlers and the binding of a mnemonic to its
    handler are absent from the sources.  They are the methods of this class:
    the resolver and a handler run on the CPU (they may move [pc], touch the
    registers and go through the bus) and yield their extra cycles. *)

Class Handlers (B H : Type) : Type := {
  lookupOp : string -> option H;
  doAddressMode : addrMode -> CPU B H -> result panic (CPU B H * Z);
  callOp : H -> CPU B H -> result panic (CPU B H * Z)
}.

Section Core.
Context {B H : Type} `{!ReadWriter B} `{!Handlers B H}.

(** Modelled from the spec: [parseOpcodeMatrix] is absent from the sources.
    It builds the 256 descriptors from the matrix and "fails construction
    with a parse error if: an addressing-mode token is unrecognized, the
    matrix has the wrong dimensions, or an opcode slot is duplicated or
    missing".  The grid is positional, so a duplicated or missing slot is a
    row or a column too many or too few. *)

Definition parseEntry (e : matrixEntry) : result error (instruction H) :=
  match addrModeFromString (modeToken e) with
  | (mode, None) =>
      Ok {| Instr.name := mnemonic e;
            Instr.operate := lookupOp (mnemonic e);
            Instr.addrMode := mode;
            Instr.cycles := baseCycles e |}
  | (_, Some err) => Err err
  end.

(** Modelled from the spec: the loop of the absent [parseOpcodeMatrix].
    Slot [i], [i+1], ... of the table receive the parsed entries in turn;
    the first token that does not parse ends the loop with its error. *)
Fixpoint parseSlots (es : list matrixEntry) (i : nat)
    (table : list (instruction H)) : result error (list (instruction H)) :=
  match es with
  | [] => Ok table
  | e :: es' =>
      match parseEntry e with
      | Ok inst => parseSlots es' (S i) (<[i := inst]> table)
      | Err err => Err err
      end
  end.

(** Modelled from the spec: the dimension check of the absent
    [parseOpcodeMatrix], sixteen rows of sixteen entries. *)
Definition wellShaped (m : opcodeMatrix) : bool :=
  (length m =? 16)%nat && forallb (fun row => (length row =? 16)%nat) m.

(** Modelled from the spec: the absent method [parseOpcodeMatrix] itself.
    It writes the table of the CPU under construction and no other field. *)
Definition parseOpcodeMatrix (m : opcodeMatrix) (c : CPU B H)
    : result error (CPU B H) :=
  if wellShaped m then
    match parseSlots (concat m) 0 (instructions c) with
    | Ok table => Ok (set_instructions c table)
    | Err err => Err err
    end
  else Err "opcode matrix has wrong dimensions".

(** ** The methods of the source *)

Definition NewCPU (m : opcodeMatrix) : result error (CPU B H) :=
  let c := {| regA := 0; regX := 0; regY := 0;
              sp := 0xff;
              pc := 0; status := 0; bus := None;
              instructions := replicate 0x100 Instr.zero;
              fetched := 0; addrAbs := 0; addrRel := 0; opcode := 0;
              cycles := 0; clockCounter := 0 |} in
  match parseOpcodeMatrix m c with
  | Err err => Err err
  | Ok c => Ok c
  end.

Definition ConnectBus (c : CPU B H) (b : B) : CPU B H :=
  set_bus c (Some b).

Definition getFlag (c : CPU B H) (flag : Z) : bool :=
  0 <? Z.land (status c) flag.

Definition setFlag (c : CPU B H) (flag : Z) (v : bool) : CPU B H :=
  if v then set_status c (Z.lor (status c) flag)
  else set_status c (Z.land (status c) (not8 flag)).

Definition Tic (c : CPU B H) : result panic (CPU B H) :=
  if negb (cycles c =? 0) then
    Ok (set_cycles c (wrap8 (cycles c - 1)))
  else
    b ← deref NilDereference (bus c);
    let '(v, b') := Read8 b (pc c) in
    let c := set_opcode (set_bus c (Some b')) v in
    let c := set_pc c (wrap16 (pc c + 1)) in
    inst ← index (instructions c) (opcode c);
    '(c, cycleCount1) ← doAddressMode (Instr.addrMode inst) c;
    operate ← deref NilFuncCall (Instr.operate inst);
    '(c, cycleCount2) ← callOp operate c;
    Ok (set_cycles c
          (wrap8 (wrap8 (Instr.cycles inst + cycleCount1) + cycleCount2))).

(** The three entry points have empty bodies in the source. *)

(* reset the CPU to its initial state *)
Definition Reset (c : CPU B H) : CPU B H := c.

(* interrupt request signal *)
Definition IRQ (c : CPU B H) : CPU B H := c.

(* non-maskable interrupt request signal *)
Definition NMI (c : CPU B H) : CPU B H := c.

Definition fetch (c : CPU B H) : CPU B H * Z := (c, 0).

(** The state of the step engine, read off the remaining-cycle counter. *)
Definition Idle (c : CPU B H) : Prop := cycles c = 0.
Definition Busy (c : CPU B H) : Prop := 0 < cycles c.

End Core.

(** ** A recording memory and a small handler set

    A bus implementation that keeps every access it serves, so that "no
    memory access" can be observed as "the record did not grow", and a
    two-handler instance of [Handlers]; both serve to run the methods above
    on concrete machines. *)

Inductive access : Type :=
  | Load8 (addr : Z)
  | Load16 (addr : Z)
  | Store8 (addr data : Z).

Record Ram : Type := {
  cells : list (Z * Z);     (* latest store first; absent cells read 0 *)
  accesses : list access    (* oldest access first *)
}.

Fixpoint peek (cs : list (Z * Z)) (addr : Z) : Z :=
  match cs with
  | [] => 0
  | (a, d) :: rest => if a =? addr then wrap8 d else peek rest addr
  end.

Definition ram_Read8 (r : Ram) (addr : Z) : Z * Ram :=
  (peek (cells r) addr,
   {| cells := cells r; accesses := accesses r ++ [Load8 addr] |}).

Definition ram_Read16 (r : Ram) (addr : Z) : Z * Ram :=
  (wrap16 (Z.lor (peek (cells r) addr)
                 (Z.shiftl (peek (cells r) (wrap16 (addr + 1))) 8)),
   {| cells := cells r; accesses := accesses r ++ [Load16 addr] |}).

Definition ram_Write8 (r : Ram) (addr data : Z) : Ram :=
  {| cells := (addr, data) :: cells r;
     accesses := accesses r ++ [Store8 addr data] |}.

#[global, refine] Instance ram_ReadWriter : ReadWriter Ram :=
  {| Read8 := ram_Read8; Read16 := ram_Read16; Write8 := ram_Write8 |}.
Proof.
  - intros [cs log] addr; simpl. unfold uint8_ok.
    induction cs as [|[a d] rest IH]; simpl; [lia|].
    destruct (a =? addr); [apply Z.mod_pos_bound; lia | exact IH].
  - intros r addr; simpl. apply Z.mod_pos_bound; lia.
Defined.

Inductive sampleOp : Type :=
  | OpNOP
  | OpLDA.

#[global] Instance sample_Handlers : Handlers Ram sampleOp := {|
  lookupOp s :=
    if String.eqb s "NOP" then Some OpNOP
    else if String.eqb s "LDA" then Some OpLDA
    else None;
  doAddressMode mode c :=
    if String.eqb mode addrModeIMM then Ok (set_pc c (wrap16 (pc c + 1)), 0)
    else if String.eqb mode addrModeABSX then Ok (set_pc c (wrap16 (pc c + 2)), 1)
    else Ok (c, 0);
  callOp h c :=
    match h with
    | OpNOP => Ok (c, 0)
    | OpLDA => Ok (c, 1)
    end
|}.

(** Sixteen rows of sixteen two-cycle implied no-ops, with the two loads
    [0xA9] (immediate) and [0xBD] (absolute,X) in their slots. *)
Definition sampleMatrix : opcodeMatrix :=
  let nop := {| mnemonic := "NOP"; modeToken := "IMP"; baseCycles := 2 |} in
  let row := replicate 16 nop in
  <[10%nat := <[9%nat := {| mnemonic := "LDA"; modeToken := "IMM";
                            baseCycles := 2 |}]> row]>
    (<[11%nat := <[13%nat := {| mnemonic := "LDA"; modeToken := "ABSX";
                                baseCycles := 4 |}]> row]>
       (replicate 16 row)).

(** The same grid with the token of slot [0x00] misspelt. *)
Definition brokenMatrix : opcodeMatrix :=
  <[0%nat := <[0%nat := {| mnemonic := "BRK"; modeToken := "IMPL";
                           baseCycles := 7 |}]> (replicate 16
      {| mnemonic := "NOP"; modeToken := "IMP"; baseCycles := 2 |})]>
    sampleMatrix.

(** A memory holding [LDA $0000,X] at address 0 and the three vectors. *)
Definition sampleRam : Ram :=
  {| cells := [(0, 0xBD); (0xFFFA, 0x00); (0xFFFB, 0x90);
               (0xFFFC, 0x00); (0xFFFD, 0x80);
               (0xFFFE, 0x00); (0xFFFF, 0xA0)];
     accesses := [] |}.

(** The machine [NewCPU] builds from [sampleMatrix], as a plain value. *)
Definition sampleCPU : CPU Ram sampleOp :=
  Eval vm_compute in
    match NewCPU sampleMatrix with
    | Ok c => c
    | Err _ =>
        {| regA := 0; regX := 0; regY := 0; sp := 0; pc := 0; status := 0;
           bus := None; instructions := []; fetched := 0; addrAbs := 0;
           addrRel := 0; opcode := 0; cycles := 0; clockCounter := 0 |}
    end.

(** A machine in the middle of a program: between two instructions, bus
    attached, registers in use, interrupts enabled. *)
Definition runningCPU : CPU Ram sampleOp :=
  {| regA := 0x42; regX := 1; regY := 2;
     sp := 0xff;
     pc := 0x1234; status := 0; bus := Some sampleRam;
     instructions := instructions sampleCPU;
     fetched := 0; addrAbs := 0; addrRel := 0; opcode := 0xEA;
     cycles := 0; clockCounter := 0 |}.

(** ** Predicates used in the statements *)

(** [s] is one of the thirteen addressing-mode tokens. *)
Definition knownToken (s : string) : bool :=
  existsb (String.eqb s) addrModes.

(** Some entry of the matrix carries a token that is not one of them. *)
Definition hasUnknownToken (m : opcodeMatrix) : bool :=
  existsb (existsb (fun e => negb (knownToken (modeToken e)))) m.

(** [mask] has exactly one of the eight bits set. *)
Definition singleBit (mask : Z) : bool :=
  existsb (Z.eqb mask)
    [flagCBit; flagZBit; flagIBit; flagDBit;
     flagBBit; flagUBit; flagVBit; flagNBit].

(** What is left of an Idle pulse once the opcode is fetched and its
    descriptor [inst] is in hand: lines 95 to 98 of [Tic]. *)
Definition dispatch {B H} `{!Handlers B H} (inst : instruction H)
    (c : CPU B H) : result panic (CPU B H) :=
  '(c, cycleCount1) ← doAddressMode (Instr.addrMode inst) c;
  operate ← deref NilFuncCall (Instr.operate inst);
  '(c, cycleCount2) ← callOp operate c;
  Ok (set_cycles c
        (wrap8 (wrap8 (Instr.cycles inst + cycleCount1) + cycleCount2))).


(** ** Driving the clock

    [n] consecutive calls of [Tic], as the loop of an embedder makes them;
    a panic ends the run. *)
Fixpoint TicN {B H} `{!ReadWriter B} `{!Handlers B H} (n : nat)
    (c : CPU B H) : result panic (CPU B H) :=
  match n with
  | O => Ok c
  | S n' => c' ← Tic c; TicN n' c'
  end.

(** The zero value [CPU{}] with a bus attached: no table at all. *)
Definition zeroCPU : CPU Ram sampleOp :=
  {| regA := 0; regX := 0; regY := 0; sp := 0; pc := 0; status := 0;
     bus := Some sampleRam; instructions := [];
     fetched := 0; addrAbs := 0; addrRel := 0; opcode := 0;
     cycles := 0; clockCounter := 0 |}.

(** The literal of [NewCPU] before any slot is filled, with a bus attached:
    256 zero descriptors, whose [operate] is the nil func. *)
Definition unfilledCPU : CPU Ram sampleOp :=
  {| regA := 0; regX := 0; regY := 0;
     sp := 0xff;
     pc := 0; status := 0; bus := Some sampleRam;
     instructions := replicate 0x100 Instr.zero;
     fetched := 0; addrAbs := 0; addrRel := 0; opcode := 0;
     cycles := 0; clockCounter := 0 |}.

(** * Properties *)

(** ** Bits of a byte *)

Lemma uint8_ok_high_bits (z i : Z) :
  uint8_ok z -> 8 <= i -> Z.testbit z i = false.
Proof.
  intros [Hlo Hhi] Hi.
  destruct (Z.eq_dec z 0) as [->|Hz]; [apply Z.bits_0|].
  apply Z.bits_above_log2; [lia|].
  assert (Z.log2 z < 8); [|lia].
  apply Z.log2_lt_pow2; lia.
Qed.

Lemma uint8_ok_of_bits (z : Z) :
  0 <= z -> (forall i, 8 <= i -> Z.testbit z i = false) -> uint8_ok z.
Proof.
  intros Hz Hbits. unfold uint8_ok. split; [exact Hz|].
  destruct (Z.eq_dec z 0) as [->|Hnz]; [lia|].
  destruct (Z_lt_le_dec z 256) as [Hlt|Hge]; [exact Hlt|exfalso].
  assert (Hlog : 8 <= Z.log2 z).
  { change 8 with (Z.log2 256). apply Z.log2_le_mono. exact Hge. }
  specialize (Hbits (Z.log2 z) Hlog).
  rewrite Z.bit_log2 in Hbits by lia. discriminate.
Qed.

Lemma testbit_255 (i : Z) :
  Z.testbit 255 i = (0 <=? i) && (i <? 8).
Proof.
  change 255 with (Z.ones 8).
  destruct (Z.leb_spec 0 i) as [Hi|Hi]; simpl.
  - destruct (Z.ltb_spec i 8) as [Hlt|Hge].
    + apply Z.ones_spec_low; lia.
    + apply Z.ones_spec_high; lia.
  - apply Z.testbit_neg_r; lia.
Qed.

Lemma singleBit_shape (mask : Z) :
  singleBit mask = true -> exists k, 0 <= k < 8 /\ mask = 2 ^ k.
Proof.
  unfold singleBit. simpl. rewrite !orb_true_iff, !Z.eqb_eq.
  intros [->|[->|[->|[->|[->|[->|[->|[->|Hf]]]]]]]]; [..|discriminate].
  - exists 0; split; [lia|reflexivity].
  - exists 1; split; [lia|reflexivity].
  - exists 2; split; [lia|reflexivity].
  - exists 3; split; [lia|reflexivity].
  - exists 4; split; [lia|reflexivity].
  - exists 5; split; [lia|reflexivity].
  - exists 6; split; [lia|reflexivity].
  - exists 7; split; [lia|reflexivity].
Qed.

Lemma land_lor_same (s f : Z) : Z.land (Z.lor s f) f = f.
Proof.
  apply Z.bits_inj'. intros i _.
  rewrite Z.land_spec, Z.lor_spec.
  destruct (Z.testbit s i), (Z.testbit f i); reflexivity.
Qed.

Lemma land_not8_same (s f : Z) : uint8_ok f -> Z.land (Z.land s (not8 f)) f = 0.
Proof.
  intros Hf. apply Z.bits_inj'. intros i Hi.
  unfold not8. rewrite !Z.land_spec, Z.lxor_spec, testbit_255, Z.bits_0.
  destruct (Z.ltb_spec i 8) as [Hlt|Hge].
  - replace (0 <=? i) with true by (symmetry; apply Z.leb_le; lia).
    destruct (Z.testbit s i), (Z.testbit f i); reflexivity.
  - rewrite (uint8_ok_high_bits f i Hf Hge).
    destruct (Z.testbit s i); simpl; rewrite ?andb_false_r; reflexivity.
Qed.

Lemma singleBit_uint8 (mask : Z) :
  singleBit mask = true -> 0 < mask /\ uint8_ok mask.
Proof.
  intros Hm. destruct (singleBit_shape mask Hm) as (k & Hk & ->).
  assert (Hcases : k = 0 \/ k = 1 \/ k = 2 \/ k = 3 \/ k = 4 \/ k = 5
                   \/ k = 6 \/ k = 7) by lia.
  unfold uint8_ok.
  destruct Hcases as [->|[->|[->|[->|[->|[->|[->| ->]]]]]]]; simpl; lia.
Qed.

Section FlagProperties.
Context {B H : Type}.
Implicit Types c : CPU B H.

Lemma setFlag_status c mask v :
  status (setFlag c mask v)
  = if v then Z.lor (status c) mask else Z.land (status c) (not8 mask).
Proof. destruct v; reflexivity. Qed.

Lemma setFlag_frame c mask v :
  setFlag c mask v = set_status c (status (setFlag c mask v)).
Proof. destruct v; reflexivity. Qed.

Lemma setFlag_other_bits c mask v i :
  uint8_ok (status c) -> Z.testbit mask i = false ->
  Z.testbit (status (setFlag c mask v)) i = Z.testbit (status c) i.
Proof.
  intros Hs Hbit. rewrite setFlag_status. destruct v.
  - rewrite Z.lor_spec, Hbit. apply orb_false_r.
  - unfold not8. rewrite Z.land_spec, Z.lxor_spec, Hbit, testbit_255.
    simpl. destruct (Z.leb_spec 0 i) as [Hi|Hi]; simpl.
    + destruct (Z.ltb_spec i 8) as [Hlt|Hge]; [apply andb_true_r|].
      rewrite (uint8_ok_high_bits _ i Hs Hge). reflexivity.
    + rewrite Z.testbit_neg_r by lia. reflexivity.
Qed.

Lemma setFlag_uint8 c mask v :
  uint8_ok (status c) -> uint8_ok mask ->
  uint8_ok (status (setFlag c mask v)).
Proof.
  intros Hs Hm. rewrite setFlag_status.
  pose proof Hs as [Hs0 _]. pose proof Hm as [Hm0 _].
  destruct v; apply uint8_ok_of_bits.
  - apply Z.lor_nonneg; split; assumption.
  - intros i Hi. rewrite Z.lor_spec.
    rewrite (uint8_ok_high_bits _ i Hs Hi), (uint8_ok_high_bits _ i Hm Hi).
    reflexivity.
  - apply Z.land_nonneg. left. exact Hs0.
  - intros i Hi. rewrite Z.land_spec.
    rewrite (uint8_ok_high_bits _ i Hs Hi). reflexivity.
Qed.

(** C7. For every status byte, every single-bit mask and every boolean
    [v]: [getFlag] after [setFlag mask v] returns [v]; [setFlag] leaves
    every bit outside the mask as it was (and the byte stays a byte); it
    writes no field but [status]; and what either accessor computes
    depends on no field but [status]. *)
Theorem flag_set_then_get c mask v :
  singleBit mask = true ->
  uint8_ok (status c) ->
  getFlag (setFlag c mask v) mask = v
  /\ (forall i, Z.testbit mask i = false ->
        Z.testbit (status (setFlag c mask v)) i = Z.testbit (status c) i)
  /\ uint8_ok (status (setFlag c mask v))
  /\ setFlag c mask v = set_status c (status (setFlag c mask v))
  /\ (forall c' : CPU B H, status c' = status c ->
        getFlag c' mask = getFlag c mask
        /\ status (setFlag c' mask v) = status (setFlag c mask v)).
Proof.
  intros Hm Hs. destruct (singleBit_uint8 mask Hm) as [Hpos Hu].
  repeat split.
  - unfold getFlag. rewrite setFlag_status. destruct v.
    + rewrite land_lor_same. apply Z.ltb_lt. exact Hpos.
    + rewrite land_not8_same by exact Hu. reflexivity.
  - intros i Hi. apply setFlag_other_bits; assumption.
  - apply (setFlag_uint8 c mask v Hs Hu).
  - apply (setFlag_uint8 c mask v Hs Hu).
  - apply setFlag_frame.
  - rename H0 into Hsame. unfold getFlag. rewrite Hsame. reflexivity.
  - rename H0 into Hsame. rewrite !setFlag_status, Hsame. reflexivity.
Qed.

End FlagProperties.

(** ** The clock pulse *)

Section TicProperties.
Context {B H : Type} `{!ReadWriter B} `{!Handlers B H}.
Implicit Types c : CPU B H.

Lemma wrap8_add_idemp (a b : Z) : wrap8 (wrap8 a + b) = wrap8 (a + b).
Proof. unfold wrap8. apply Zplus_mod_idemp_l. Qed.

Lemma wrap8_small (z : Z) : uint8_ok z -> wrap8 z = z.
Proof. intros Hz. apply Z.mod_small. exact Hz. Qed.

(** An Idle pulse on a CPU with a bus: fetch, advance [pc], index the
    table, and hand over to [dispatch]. *)
Lemma Tic_idle_unfold c b :
  cycles c = 0 -> bus c = Some b ->
  Tic c =
    (let c1 := set_pc (set_opcode (set_bus c (Some (Read8 b (pc c)).2))
                                  (Read8 b (pc c)).1)
                      (wrap16 (pc c + 1)) in
     inst ← index (instructions c) (Read8 b (pc c)).1; dispatch inst c1).
Proof.
  intros Hidle Hbus. unfold Tic, dispatch.
  rewrite Hidle, Hbus. simpl.
  destruct (Read8 b (pc c)) as [v b']. reflexivity.
Qed.

(** C1. On an Idle CPU with its bus attached, one pulse reads the opcode
    byte at [pc] from the bus, stores it, advances [pc] by one modulo
    2^16, takes the descriptor at that opcode, runs the resolver (extra
    cycles [n1]) and then the handler (extra cycles [n2]) and leaves the
    remaining-cycle counter at the [uint8] sum base + [n1] + [n2]. *)
Theorem Tic_idle_executes c b v b' inst h c1 n1 c2 n2 :
  cycles c = 0 ->
  bus c = Some b ->
  Read8 b (pc c) = (v, b') ->
  index (instructions c) v = Ok inst ->
  let fetched_c :=
    set_pc (set_opcode (set_bus c (Some b')) v) (wrap16 (pc c + 1)) in
  doAddressMode (Instr.addrMode inst) fetched_c = Ok (c1, n1) ->
  Instr.operate inst = Some h ->
  callOp h c1 = Ok (c2, n2) ->
  Tic c = Ok (set_cycles c2 (wrap8 (Instr.cycles inst + n1 + n2)))
  /\ opcode fetched_c = v
  /\ pc fetched_c = (pc c + 1) mod 2 ^ 16
  /\ (uint8_ok (Instr.cycles inst + n1 + n2) ->
      forall c', Tic c = Ok c' -> cycles c' = Instr.cycles inst + n1 + n2).
Proof.
  intros Hidle Hbus Hread Hinst fetched_c Hmode Hop Hcall.
  assert (Hstep : Tic c
                  = Ok (set_cycles c2 (wrap8 (Instr.cycles inst + n1 + n2)))).
  { rewrite (Tic_idle_unfold c b Hidle Hbus), Hread. simpl.
    rewrite Hinst. simpl. unfold dispatch.
    fold fetched_c. rewrite Hmode. simpl. rewrite Hop. simpl.
    rewrite Hcall. simpl. rewrite wrap8_add_idemp. reflexivity. }
  split; [exact Hstep|]. split; [reflexivity|]. split; [reflexivity|].
  intros Hsum c' Hc'. rewrite Hstep in Hc'. injection Hc' as <-.
  simpl. apply wrap8_small. exact Hsum.
Qed.

(** C2. On a Busy CPU one pulse takes one off the remaining-cycle
    counter and leaves every other field as it was, the bus state
    included (nothing was read or written, whatever the bus is); the
    engine is Idle afterwards exactly when the counter was at one. *)
Theorem Tic_busy_waits c :
  0 < cycles c < 256 ->
  exists c',
    Tic c = Ok c'
    /\ c' = set_cycles c (cycles c - 1)
    /\ cycles c' = cycles c - 1
    /\ regA c' = regA c /\ regX c' = regX c /\ regY c' = regY c
    /\ sp c' = sp c /\ pc c' = pc c /\ status c' = status c
    /\ fetched c' = fetched c /\ addrAbs c' = addrAbs c
    /\ addrRel c' = addrRel c /\ opcode c' = opcode c
    /\ clockCounter c' = clockCounter c
    /\ instructions c' = instructions c
    /\ bus c' = bus c
    /\ (Idle c' <-> cycles c = 1)
    /\ (Busy c' <-> 1 < cycles c).
Proof.
  intros Hbusy. exists (set_cycles c (cycles c - 1)).
  split.
  - unfold Tic.
    replace (cycles c =? 0) with false by (symmetry; apply Z.eqb_neq; lia).
    simpl. rewrite wrap8_small by (unfold uint8_ok; lia). reflexivity.
  - unfold Idle, Busy. simpl. repeat split; lia.
Qed.

(** The entry points do nothing at all. *)
Lemma Reset_noop c : Reset c = c.
Proof. reflexivity. Qed.

Lemma NMI_noop c : NMI c = c.
Proof. reflexivity. Qed.

(** C5. With the interrupt-disable flag set, [IRQ] returns the CPU as it
    received it: no register, flag or counter moves and the bus state is
    the one it was, so nothing was read or written. *)
Theorem IRQ_masked_noop c :
  getFlag c flagIBit = true -> IRQ c = c.
Proof. intros _. reflexivity. Qed.

End TicProperties.

(** ** Parsing addressing-mode tokens *)

Lemma knownToken_In (s : string) : knownToken s = true <-> In s addrModes.
Proof.
  unfold knownToken. rewrite existsb_exists. split.
  - intros (t & Hin & Heq). apply String.eqb_eq in Heq. subst t. exact Hin.
  - intros Hin. exists s. split; [exact Hin|apply String.eqb_refl].
Qed.

Ltac split_on_token s :=
  repeat (match goal with
          | |- context [String.eqb s ?t] =>
              destruct (String.eqb_spec s t) as [->|?];
              [simpl; intros Hd; first [reflexivity | discriminate Hd] | simpl]
          end);
  intros Hd; first [reflexivity | discriminate Hd].

Lemma addrModeFromString_known (s : string) :
  knownToken s = true -> addrModeFromString s = (s, None).
Proof.
  unfold knownToken, addrModeFromString, addrModes. simpl.
  split_on_token s.
Qed.

Lemma addrModeFromString_unknown (s : string) :
  knownToken s = false ->
  addrModeFromString s
  = ("UNKNOWN", Some ("address mode couldn't be parsed from " ++ s)).
Proof.
  unfold knownToken, addrModeFromString, addrModes. simpl.
  split_on_token s.
Qed.

(** ** Building the opcode table *)


Section TableProperties.
Context {B H : Type} `{!ReadWriter B} `{!Handlers B H}.
Implicit Types (c : CPU B H) (table : list (instruction H)).


Lemma parseEntry_known (e : matrixEntry) :
  knownToken (modeToken e) = true ->
  parseEntry (H := H) e
  = Ok {| Instr.name := mnemonic e;
          Instr.operate := lookupOp (mnemonic e);
          Instr.addrMode := modeToken e;
          Instr.cycles := baseCycles e |}.
Proof.
  intros Hk. unfold parseEntry.
  rewrite (addrModeFromString_known _ Hk). reflexivity.
Qed.

Lemma parseEntry_unknown (e : matrixEntry) :
  knownToken (modeToken e) = false ->
  exists err, parseEntry (H := H) e = Err err.
Proof.
  intros Hk. unfold parseEntry.
  rewrite (addrModeFromString_unknown _ Hk). eexists. reflexivity.
Qed.

Lemma parseEntry_Ok_inv (e : matrixEntry) (inst : instruction H) :
  parseEntry e = Ok inst ->
  knownToken (Instr.addrMode inst) = true
  /\ Instr.cycles inst = baseCycles e
  /\ Instr.name inst = mnemonic e.
Proof.
  destruct (knownToken (modeToken e)) eqn:Hk.
  - rewrite (parseEntry_known e Hk). intros [= <-]. simpl. auto.
  - destruct (parseEntry_unknown e Hk) as [err ->]. discriminate.
Qed.

Lemma parseSlots_length es i table table' :
  parseSlots es i table = Ok table' -> length table' = length table.
Proof.
  revert i table. induction es as [|e es IH]; intros i table; simpl.
  - intros [= <-]. reflexivity.
  - destruct (parseEntry e) as [inst|err]; [|discriminate].
    intros Hrest. rewrite (IH _ _ Hrest). apply length_insert.
Qed.



Lemma parseSlots_unknown es i table (e : matrixEntry) :
  In e es -> knownToken (modeToken e) = false ->
  exists err, parseSlots es i table = Err err.
Proof.
  intros Hin Hk. revert i table.
  induction es as [|e0 es IH]; intros i table; simpl; [destruct Hin|].
  destruct (parseEntry e0) as [inst0|err] eqn:He0; [|eexists; reflexivity].
  destruct Hin as [->|Hin].
  - destruct (parseEntry_unknown e Hk) as [err Herr]. congruence.
  - apply IH. exact Hin.
Qed.

(** What a successful construction went through. *)
Lemma NewCPU_Ok_inv (m : opcodeMatrix) c :
  NewCPU m = Ok c ->
  wellShaped m = true
  /\ exists table,
       parseSlots (concat m) 0 (replicate 256 Instr.zero) = Ok table
       /\ instructions c = table
       /\ regA c = 0 /\ regX c = 0 /\ regY c = 0 /\ sp c = 255
       /\ pc c = 0 /\ status c = 0 /\ bus c = None
       /\ fetched c = 0 /\ addrAbs c = 0 /\ addrRel c = 0
       /\ opcode c = 0 /\ cycles c = 0 /\ clockCounter c = 0.
Proof.
  unfold NewCPU, parseOpcodeMatrix. cbn -[replicate parseSlots].
  destruct (wellShaped m); [|discriminate].
  destruct (parseSlots (concat m) 0 (replicate 256 Instr.zero))
    as [table|err] eqn:Hparse; [|discriminate].
  intros [= <-]. split; [reflexivity|].
  exists table. simpl. repeat split; reflexivity.
Qed.

End TableProperties.

(** ** Construction *)

Section Construction.
Context {B H : Type} `{!ReadWriter B} `{!Handlers B H}.
Implicit Types (c : CPU B H) (m : opcodeMatrix).

Lemma NewCPU_table_length m c :
  NewCPU m = Ok c -> length (instructions c) = 256%nat.
Proof.
  intros Hnew. destruct (NewCPU_Ok_inv m c Hnew) as (_ & table & Hp & -> & _).
  rewrite (parseSlots_length _ _ _ _ Hp). apply length_replicate.
Qed.

Lemma index_in_bounds {A} (s : list A) (i : Z) :
  0 <= i < Z.of_nat (length s) -> exists a, index s i = Ok a.
Proof.
  intros Hi. unfold index.
  destruct (lookup_lt_is_Some_2 s (Z.to_nat i)) as [a Ha]; [lia|].
  exists a. rewrite Ha. reflexivity.
Qed.



(** C8. [addrModeFromString] returns its argument and no error on each of
    the thirteen tokens and an error on every other string; and
    construction fails on any matrix that holds an entry with such a
    string for its token. *)
Theorem addrModeFromString_total :
  addrModes = ["IMM"; "ZP"; "ABS"; "ZPX"; "ZPY"; "ABSX"; "ABSY"; "IND";
               "INDX"; "INDY"; "REL"; "ACC"; "IMP"]
  /\ (forall s, knownToken s = true <-> In s addrModes)
  /\ (forall s, knownToken s = true -> addrModeFromString s = (s, None))
  /\ (forall s, knownToken s = false ->
        exists err, addrModeFromString s = ("UNKNOWN", Some err))
  /\ (forall m, hasUnknownToken m = true ->
        exists err, NewCPU (B := B) (H := H) m = Err err).
Proof.
  split; [reflexivity|]. split; [exact knownToken_In|].
  split; [exact addrModeFromString_known|]. split.
  - intros s Hs. eexists. apply (addrModeFromString_unknown s Hs).
  - intros m Hm. unfold hasUnknownToken in Hm.
    apply existsb_exists in Hm as (row & Hrow & Hm).
    apply existsb_exists in Hm as (e & He & Hk).
    apply negb_true_iff in Hk.
    unfold NewCPU, parseOpcodeMatrix. cbn -[replicate parseSlots].
    destruct (wellShaped m); [|eexists; reflexivity].
    destruct (parseSlots_unknown (concat m) 0 (replicate 256 Instr.zero) e)
      as [err Herr]; [|exact Hk|].
    + apply in_concat. exists row. split; assumption.
    + rewrite Herr. exists err. reflexivity.
Qed.

(** C9. Whenever construction succeeds, the CPU it returns has A, X, Y,
    PC and the status byte at zero, both cycle counters at zero and SP at
    0xFF (no bus attached yet, scratch fields at zero). *)
Theorem NewCPU_initial_registers m c :
  NewCPU m = Ok c ->
  regA c = 0 /\ regX c = 0 /\ regY c = 0 /\ pc c = 0 /\ status c = 0
  /\ cycles c = 0 /\ clockCounter c = 0 /\ sp c = 0xFF
  /\ bus c = None
  /\ fetched c = 0 /\ addrAbs c = 0 /\ addrRel c = 0 /\ opcode c = 0.
Proof.
  intros Hnew.
  destruct (NewCPU_Ok_inv m c Hnew)
    as (_ & table & _ & _ & HA & HX & HY & Hsp & Hpc & Hst & Hbus
        & Hf & Habs & Hrel & Hop & Hcy & Hclk).
  repeat split; assumption.
Qed.

(** C10. Whenever construction succeeds the table has exactly 256
    descriptors; and on any Idle CPU carrying that table, with any bus
    attached, the opcode the pulse reads is a byte, the lookup at that
    opcode finds a descriptor, and the pulse goes on to dispatch it. *)
Theorem opcode_lookup_in_bounds m c :
  NewCPU m = Ok c ->
  length (instructions c) = 256%nat
  /\ forall (c' : CPU B H) (b : B),
       instructions c' = instructions c ->
       cycles c' = 0 ->
       bus c' = Some b ->
       uint8_ok (Read8 b (pc c')).1
       /\ exists inst,
            index (instructions c') (Read8 b (pc c')).1 = Ok inst
            /\ Tic c' =
                 dispatch inst
                   (set_pc (set_opcode (set_bus c' (Some (Read8 b (pc c')).2))
                                       (Read8 b (pc c')).1)
                           (wrap16 (pc c' + 1))).
Proof.
  intros Hnew. pose proof (NewCPU_table_length m c Hnew) as Hlen.
  split; [exact Hlen|].
  intros c' b Htable Hidle Hbus.
  pose proof (Read8_uint8 b (pc c')) as Hbyte.
  split; [exact Hbyte|].
  destruct (index_in_bounds (instructions c') (Read8 b (pc c')).1)
    as [inst Hinst].
  { rewrite Htable, Hlen. unfold uint8_ok in Hbyte. lia. }
  exists inst. split; [exact Hinst|].
  rewrite (Tic_idle_unfold c' b Hidle Hbus). simpl.
  rewrite Hinst. reflexivity.
Qed.

End Construction.

(** ** The entry points on a running machine *)

(** C3. [Reset] on [runningCPU] hands the machine back as it was: A keeps
    0x42, SP stays at 0xFF, PC stays at 0x1234 although the reset vector
    holds 0x8000, the interrupt-disable and unused bits stay clear and the
    remaining-cycle counter stays at zero. *)
Lemma Reset_keeps_running_state :
  Reset runningCPU = runningCPU
  /\ regA (Reset runningCPU) = 0x42
  /\ regX (Reset runningCPU) = 1
  /\ regY (Reset runningCPU) = 2
  /\ sp (Reset runningCPU) = 0xFF
  /\ pc (Reset runningCPU) = 0x1234
  /\ (Read16 sampleRam 0xFFFC).1 = 0x8000
  /\ getFlag (Reset runningCPU) flagIBit = false
  /\ getFlag (Reset runningCPU) flagUBit = false
  /\ cycles (Reset runningCPU) = 0.
Proof. repeat split; reflexivity. Qed.

(** C4. [NMI] on [runningCPU] hands the machine back as it was: SP stays
    at 0xFF, the bus has served no access (nothing was pushed, no vector was
    read), the interrupt-disable flag stays clear, PC stays at 0x1234
    although the NMI vector holds 0x9000, and no cycle is consumed. *)
Lemma NMI_keeps_running_state :
  NMI runningCPU = runningCPU
  /\ sp (NMI runningCPU) = 0xFF
  /\ (accesses <$> bus (NMI runningCPU)) = Some []
  /\ (cells <$> bus (NMI runningCPU)) = Some (cells sampleRam)
  /\ getFlag (NMI runningCPU) flagIBit = false
  /\ pc (NMI runningCPU) = 0x1234
  /\ (Read16 sampleRam 0xFFFA).1 = 0x9000
  /\ cycles (NMI runningCPU) = 0.
Proof. repeat split; reflexivity. Qed.

(** ** The statements at concrete machines *)

Lemma Tic_idle_executes_witness :
  exists c',
    Tic (ConnectBus sampleCPU sampleRam) = Ok c'
    /\ opcode c' = 0xBD /\ pc c' = 3 /\ cycles c' = 4 + 1 + 1
    /\ (accesses <$> bus c') = Some [Load8 0].
Proof.
  edestruct (Tic_idle_executes (ConnectBus sampleCPU sampleRam) sampleRam)
    as (Hstep & _ & _ & _).
  - reflexivity.
  - reflexivity.
  - reflexivity.
  - reflexivity.
  - reflexivity.
  - reflexivity.
  - reflexivity.
  - eexists. split; [exact Hstep|]. repeat split; reflexivity.
Defined.

Lemma Tic_busy_waits_witness :
  exists c',
    Tic (set_cycles runningCPU 2) = Ok c'
    /\ cycles c' = 1 /\ regA c' = 0x42 /\ pc c' = 0x1234
    /\ (accesses <$> bus c') = Some [].
Proof.
  assert (Hbusy : 0 < cycles (set_cycles runningCPU 2) < 256) by (simpl; lia).
  destruct (Tic_busy_waits (set_cycles runningCPU 2) Hbusy)
    as (c' & Hstep & Hc' & _).
  exists c'. split; [exact Hstep|]. rewrite Hc'. repeat split; reflexivity.
Defined.

Lemma IRQ_masked_noop_witness :
  IRQ (setFlag runningCPU flagIBit true) = setFlag runningCPU flagIBit true.
Proof. apply (IRQ_masked_noop (setFlag runningCPU flagIBit true)). reflexivity. Defined.

Lemma flag_set_then_get_witness :
  getFlag (setFlag (setFlag runningCPU flagCBit true) flagZBit true) flagZBit
  = true
  /\ getFlag (setFlag (setFlag runningCPU flagCBit true) flagZBit false)
       flagZBit = false.
Proof.
  assert (Hmask : singleBit flagZBit = true) by reflexivity.
  assert (Hbyte : uint8_ok (status (setFlag runningCPU flagCBit true))).
  { unfold uint8_ok. change (status _) with 1. lia. }
  split.
  - exact (proj1 (flag_set_then_get _ flagZBit true Hmask Hbyte)).
  - exact (proj1 (flag_set_then_get _ flagZBit false Hmask Hbyte)).
Defined.



Lemma addrModeFromString_total_witness :
  addrModeFromString "ZPX" = ("ZPX", None)
  /\ (exists err, addrModeFromString "zpx" = ("UNKNOWN", Some err))
  /\ (exists err, NewCPU (B := Ram) (H := sampleOp) brokenMatrix = Err err).
Proof.
  destruct (addrModeFromString_total (B := Ram) (H := sampleOp))
    as (_ & _ & Hknown & Hunknown & Hfail).
  split; [apply Hknown; reflexivity|].
  split; [apply Hunknown; reflexivity|].
  apply Hfail. vm_compute. reflexivity.
Defined.

Lemma NewCPU_initial_registers_witness :
  regA sampleCPU = 0 /\ regX sampleCPU = 0 /\ regY sampleCPU = 0
  /\ pc sampleCPU = 0 /\ status sampleCPU = 0
  /\ cycles sampleCPU = 0 /\ clockCounter sampleCPU = 0
  /\ sp sampleCPU = 0xFF
  /\ bus sampleCPU = None
  /\ fetched sampleCPU = 0 /\ addrAbs sampleCPU = 0
  /\ addrRel sampleCPU = 0 /\ opcode sampleCPU = 0.
Proof.
  apply (NewCPU_initial_registers sampleMatrix sampleCPU).
  vm_compute. reflexivity.
Defined.

Lemma opcode_lookup_in_bounds_witness :
  length (instructions sampleCPU) = 256%nat
  /\ exists inst,
       index (instructions runningCPU) (Read8 sampleRam (pc runningCPU)).1
       = Ok inst.
Proof.
  assert (Hnew : NewCPU sampleMatrix = Ok sampleCPU) by (vm_compute; reflexivity).
  destruct (opcode_lookup_in_bounds sampleMatrix sampleCPU Hnew) as [Hlen Hstep].
  split; [exact Hlen|].
  destruct (Hstep runningCPU sampleRam eq_refl eq_refl eq_refl)
    as (_ & inst & Hinst & _).
  exists inst. exact Hinst.
Defined.

(** * Further properties of the flag accessors *)

Lemma land_pow2_testbit (s k : Z) :
  0 <= k -> Z.land s (2 ^ k) = if Z.testbit s k then 2 ^ k else 0.
Proof.
  intros Hk. apply Z.bits_inj'. intros i Hi.
  rewrite Z.land_spec, Z.pow2_bits_eqb by exact Hk.
  destruct (Z.eqb_spec k i) as [->|Hne].
  - destruct (Z.testbit s i); simpl.
    + rewrite Z.pow2_bits_eqb, Z.eqb_refl by exact Hi. reflexivity.
    + rewrite Z.bits_0. reflexivity.
  - rewrite andb_false_r. destruct (Z.testbit s k).
    + rewrite Z.pow2_bits_eqb by exact Hk.
      symmetry. apply Z.eqb_neq. exact Hne.
    + rewrite Z.bits_0. reflexivity.
Qed.

Lemma set_status_twice {B H} (c : CPU B H) (a b : Z) :
  set_status (set_status c a) b = set_status c b.
Proof. reflexivity. Qed.

Section FlagAlgebra.
Context {B H : Type}.
Implicit Types c : CPU B H.

Lemma getFlag_shiftl c (k : Z) :
  0 <= k -> getFlag c (Z.shiftl 1 k) = Z.testbit (status c) k.
Proof.
  intros Hk. unfold getFlag.
  rewrite Z.shiftl_1_l, land_pow2_testbit by exact Hk.
  destruct (Z.testbit (status c) k); [|reflexivity].
  apply Z.ltb_lt. apply Z.pow_pos_nonneg; lia.
Qed.

(** X1. [getFlag] with the mask [1 << k] is the test of bit [k] of the
    status byte. *)
Theorem getFlag_tests_bit c (k : Z) :
  0 <= k -> getFlag c (Z.shiftl 1 k) = Z.testbit (status c) k.
Proof. exact (getFlag_shiftl c k). Qed.

(** X2. The eight named flags are independent: writing one of them never
    changes what [getFlag] answers for another. *)
Theorem setFlag_keeps_other_flags c (f g : Z) (v : bool) :
  singleBit f = true -> singleBit g = true -> f <> g ->
  uint8_ok (status c) ->
  getFlag (setFlag c f v) g = getFlag c g.
Proof.
  intros Hf Hg Hne Hs.
  destruct (singleBit_shape f Hf) as (j & Hj & ->).
  destruct (singleBit_shape g Hg) as (k & Hk & ->).
  assert (Hjk : j <> k) by (intros ->; apply Hne; reflexivity).
  rewrite <- !Z.shiftl_1_l, !getFlag_shiftl by lia.
  apply setFlag_other_bits; [exact Hs|].
  rewrite Z.shiftl_1_l, Z.pow2_bits_eqb by lia.
  apply Z.eqb_neq. exact Hjk.
Qed.

(** X3. With a mask of several bits [getFlag] answers whether any of them
    is set: the answer for [f | g] is the disjunction of the answers for
    [f] and [g]; with the empty mask it answers false. *)
Theorem getFlag_union_mask c (f g : Z) :
  0 <= f -> 0 <= g ->
  getFlag c (Z.lor f g) = getFlag c f || getFlag c g
  /\ getFlag c 0 = false.
Proof.
  intros Hf Hg. split.
  - unfold getFlag. rewrite Z.land_lor_distr_r.
    assert (Ha : 0 <= Z.land (status c) f) by (apply Z.land_nonneg; lia).
    assert (Hb : 0 <= Z.land (status c) g) by (apply Z.land_nonneg; lia).
    pose proof (Z.lor_eq_0_iff (Z.land (status c) f) (Z.land (status c) g))
      as Hzero.
    assert (Hab : 0 <= Z.lor (Z.land (status c) f) (Z.land (status c) g))
      by (apply Z.lor_nonneg; split; assumption).
    destruct (Z.ltb_spec 0 (Z.land (status c) f)) as [Hfa|Hfa];
      destruct (Z.ltb_spec 0 (Z.land (status c) g)) as [Hgb|Hgb]; simpl.
    + apply Z.ltb_lt. destruct (Z.eq_dec (Z.lor (Z.land (status c) f)
        (Z.land (status c) g)) 0) as [He|He]; [apply Hzero in He; lia | lia].
    + apply Z.ltb_lt. destruct (Z.eq_dec (Z.lor (Z.land (status c) f)
        (Z.land (status c) g)) 0) as [He|He]; [apply Hzero in He; lia | lia].
    + apply Z.ltb_lt. destruct (Z.eq_dec (Z.lor (Z.land (status c) f)
        (Z.land (status c) g)) 0) as [He|He]; [apply Hzero in He; lia | lia].
    + apply Z.ltb_ge. assert (He : Z.lor (Z.land (status c) f)
        (Z.land (status c) g) = 0) by (apply Hzero; lia). lia.
  - unfold getFlag. rewrite Z.land_0_r. reflexivity.
Qed.

(** X4. For any byte mask, reading the mask back after clearing it answers
    false, and after setting it answers true exactly when the mask is not
    empty. *)
Theorem getFlag_after_setFlag_any_mask c (mask : Z) :
  uint8_ok mask ->
  getFlag (setFlag c mask true) mask = (0 <? mask)
  /\ getFlag (setFlag c mask false) mask = false.
Proof.
  intros Hm. unfold getFlag. rewrite !setFlag_status. split.
  - rewrite land_lor_same. reflexivity.
  - rewrite land_not8_same by exact Hm. reflexivity.
Qed.

End FlagAlgebra.

(** Bits of a byte at a position, for the case analysis below. *)
Lemma byte_bit_cases (z i : Z) :
  uint8_ok z -> 0 <= i ->
  (i < 8 /\ Z.testbit 255 i = true)
  \/ (8 <= i /\ Z.testbit 255 i = false /\ Z.testbit z i = false).
Proof.
  intros Hz Hi. rewrite testbit_255.
  destruct (Z.ltb_spec i 8) as [Hlt|Hge].
  - left. split; [exact Hlt|]. rewrite andb_true_r. apply Z.leb_le. exact Hi.
  - right. split; [exact Hge|]. split; [apply andb_false_r|].
    apply uint8_ok_high_bits; assumption.
Qed.

Section FlagComposition.
Context {B H : Type}.
Implicit Types c : CPU B H.

(** X5. Two writes through the same byte mask: the last one wins, so a
    repeated write is idempotent and a write undoes the opposite write. *)
Theorem setFlag_last_write_wins c (mask : Z) (v w : bool) :
  uint8_ok (status c) -> uint8_ok mask ->
  setFlag (setFlag c mask v) mask w = setFlag c mask w.
Proof.
  intros Hs Hm.
  rewrite (setFlag_frame (setFlag c mask v) mask w), (setFlag_frame c mask w).
  rewrite (setFlag_frame c mask v) at 1. rewrite set_status_twice.
  f_equal. rewrite !setFlag_status.
  destruct v, w; apply Z.bits_inj'; intros i Hi; unfold not8;
    repeat rewrite ?Z.land_spec, ?Z.lor_spec, ?Z.lxor_spec;
    destruct (byte_bit_cases (status c) i Hs Hi)
      as [[_ H255]|(Hge & H255 & Hsi)];
    rewrite ?H255, ?Hsi;
    try rewrite (uint8_ok_high_bits mask i Hm) by lia;
    destruct (Z.testbit (status c) i), (Z.testbit mask i); reflexivity.
Qed.

(** X6. Writes through two byte masks with no bit in common commute. *)
Theorem setFlag_disjoint_commute c (f g : Z) (v w : bool) :
  uint8_ok (status c) -> uint8_ok f -> uint8_ok g ->
  Z.land f g = 0 ->
  setFlag (setFlag c f v) g w = setFlag (setFlag c g w) f v.
Proof.
  intros Hs Hf Hg Hfg.
  rewrite (setFlag_frame (setFlag c f v) g w).
  rewrite (setFlag_frame (setFlag c g w) f v).
  rewrite (setFlag_frame c f v) at 1. rewrite (setFlag_frame c g w) at 1.
  rewrite !set_status_twice. f_equal. rewrite !setFlag_status.
  destruct v, w; apply Z.bits_inj'; intros i Hi; unfold not8;
    repeat rewrite ?Z.land_spec, ?Z.lor_spec, ?Z.lxor_spec;
    pose proof (f_equal (fun z => Z.testbit z i) Hfg) as Hbit;
    simpl in Hbit; rewrite Z.land_spec, Z.bits_0 in Hbit;
    destruct (byte_bit_cases (status c) i Hs Hi)
      as [[_ H255]|(Hge & H255 & Hsi)];
    rewrite ?H255, ?Hsi;
    try rewrite (uint8_ok_high_bits f i Hf) in * by lia;
    try rewrite (uint8_ok_high_bits g i Hg) in * by lia;
    destruct (Z.testbit (status c) i), (Z.testbit f i), (Z.testbit g i);
    simpl in *; congruence.
Qed.

End FlagComposition.

(** * Further properties of the clock pulse *)

Lemma set_cycles_twice {B H} (c : CPU B H) (a b : Z) :
  set_cycles (set_cycles c a) b = set_cycles c b.
Proof. reflexivity. Qed.

Section PulseProperties.
Context {B H : Type} `{!ReadWriter B} `{!Handlers B H}.
Implicit Types c : CPU B H.

Lemma Tic_busy_step c :
  0 < cycles c < 256 -> Tic c = Ok (set_cycles c (cycles c - 1)).
Proof.
  intros Hbusy. unfold Tic.
  replace (cycles c =? 0) with false by (symmetry; apply Z.eqb_neq; lia).
  simpl. unfold wrap8. rewrite Z.mod_small by lia. reflexivity.
Qed.

(** Whatever the resolver and the handler return, the counter a pulse
    leaves is a byte. *)
Lemma Tic_cycles_byte c c' :
  Tic c = Ok c' -> uint8_ok (cycles c').
Proof.
  unfold Tic. destruct (cycles c =? 0); simpl.
  - destruct (bus c) as [b|]; simpl; [|discriminate].
    destruct (Read8 b (pc c)) as [v b']. simpl.
    destruct (index (instructions c) v) as [inst|p]; simpl; [|discriminate].
    destruct (doAddressMode _ _) as [[c1 n1]|p]; simpl; [|discriminate].
    destruct (Instr.operate inst) as [h|]; simpl; [|discriminate].
    destruct (callOp h c1) as [[c2 n2]|p]; simpl; [|discriminate].
    intros [= <-]. simpl. apply Z.mod_pos_bound. lia.
  - intros [= <-]. simpl. apply Z.mod_pos_bound. lia.
Qed.

(** X7. An Idle pulse on a CPU that never had [ConnectBus] called panics
    on the nil bus, before any field is written. *)
Theorem Tic_without_bus_panics c :
  cycles c = 0 -> bus c = None -> Tic c = Err NilDereference.
Proof.
  intros Hidle Hbus. unfold Tic. rewrite Hidle, Hbus. reflexivity.
Qed.

(** X8. An Idle pulse whose opcode lies at or beyond the end of the table
    panics on the slice index; in particular every Idle pulse does on an
    empty table. *)
Theorem Tic_short_table_panics c b :
  cycles c = 0 -> bus c = Some b ->
  Z.of_nat (length (instructions c)) <= (Read8 b (pc c)).1 ->
  Tic c = Err IndexOutOfRange.
Proof.
  intros Hidle Hbus Hshort.
  rewrite (Tic_idle_unfold c b Hidle Hbus). simpl.
  unfold index. rewrite (lookup_ge_None_2 (instructions c)) by lia.
  reflexivity.
Qed.

(** X9. An Idle pulse that lands on a descriptor whose [operate] is the nil
    func (a slot still at its zero value) panics on the call, once the
    resolver has returned. *)
Theorem Tic_nil_handler_panics c b inst c1 n1 :
  cycles c = 0 -> bus c = Some b ->
  index (instructions c) (Read8 b (pc c)).1 = Ok inst ->
  Instr.operate inst = None ->
  doAddressMode (Instr.addrMode inst)
    (set_pc (set_opcode (set_bus c (Some (Read8 b (pc c)).2))
                        (Read8 b (pc c)).1)
            (wrap16 (pc c + 1))) = Ok (c1, n1) ->
  Tic c = Err NilFuncCall.
Proof.
  intros Hidle Hbus Hinst Hnil Hmode.
  rewrite (Tic_idle_unfold c b Hidle Hbus). simpl.
  rewrite Hinst. simpl. unfold dispatch.
  rewrite Hmode. simpl. rewrite Hnil. reflexivity.
Qed.

Lemma TicN_busy_run (k : nat) c :
  Z.of_nat k <= cycles c < 256 ->
  TicN k c = Ok (set_cycles c (cycles c - Z.of_nat k)).
Proof.
  revert c. induction k as [|k IH]; intros c Hk.
  - simpl. rewrite Z.sub_0_r. destruct c; reflexivity.
  - rewrite Nat2Z.inj_succ in Hk.
    cbn [TicN]. rewrite Tic_busy_step by lia.
    change (TicN k (set_cycles c (cycles c - 1))
            = Ok (set_cycles c (cycles c - Z.of_nat (S k)))).
    rewrite IH by (cbn [cycles set_cycles]; lia).
    rewrite set_cycles_twice. cbn [cycles set_cycles].
    rewrite Nat2Z.inj_succ. do 2 f_equal. lia.
Qed.

(** X10. Countdown: on a CPU whose counter is at least [k], the next [k]
    pulses succeed (with or without a bus), take [k] off the counter and
    leave every other field, the bus state included, as it was. *)
Theorem TicN_counts_down (k : nat) c :
  Z.of_nat k <= cycles c < 256 ->
  TicN k c = Ok (set_cycles c (cycles c - Z.of_nat k))
  /\ (forall c', TicN k c = Ok c' ->
        cycles c' = cycles c - Z.of_nat k
        /\ bus c' = bus c /\ instructions c' = instructions c
        /\ regA c' = regA c /\ regX c' = regX c /\ regY c' = regY c
        /\ sp c' = sp c /\ pc c' = pc c /\ status c' = status c).
Proof.
  intros Hk. pose proof (TicN_busy_run k c Hk) as Hrun.
  split; [exact Hrun|].
  intros c' Hc'. rewrite Hrun in Hc'. injection Hc' as <-.
  repeat split; reflexivity.
Qed.

(** X11. One instruction, start to end: when a pulse succeeds and leaves
    the counter at [n], that pulse followed by [n] more brings the engine
    back to Idle, in the state the first pulse left apart from the
    counter. *)
Theorem TicN_completes_instruction c c1 :
  Tic c = Ok c1 ->
  TicN (S (Z.to_nat (cycles c1))) c = Ok (set_cycles c1 0)
  /\ Idle (set_cycles c1 0).
Proof.
  intros Hstep. pose proof (Tic_cycles_byte c c1 Hstep) as [Hlo Hhi].
  split; [|reflexivity].
  cbn [TicN]. rewrite Hstep. simpl.
  rewrite TicN_busy_run by lia.
  f_equal. f_equal. lia.
Qed.

End PulseProperties.

(** * Further properties of the token parser *)

(** X12. Both components of the result of [addrModeFromString] are decided
    by whether the string is one of the thirteen tokens: the string itself
    with a nil error, or ["UNKNOWN"] with an error whose message ends in the
    string; the returned mode is a token exactly when the error is nil. *)
Theorem addrModeFromString_result (s : string) :
  (addrModeFromString s).1 = (if knownToken s then s else "UNKNOWN")
  /\ (addrModeFromString s).2
     = (if knownToken s then None
        else Some ("address mode couldn't be parsed from " ++ s))
  /\ knownToken (addrModeFromString s).1 = knownToken s
  /\ ((addrModeFromString s).2 = None
      <-> knownToken (addrModeFromString s).1 = true).
Proof.
  destruct (knownToken s) eqn:Hk.
  - rewrite (addrModeFromString_known s Hk). simpl.
    repeat split; intros; try assumption; reflexivity.
  - rewrite (addrModeFromString_unknown s Hk). simpl.
    repeat split; try reflexivity; intros Hd.
    + discriminate Hd.
    + vm_compute in Hd. discriminate Hd.
Qed.

(** ** The further properties at concrete machines *)

Lemma getFlag_tests_bit_witness :
  getFlag (setFlag runningCPU flagNBit true) (Z.shiftl 1 7)
  = Z.testbit (status (setFlag runningCPU flagNBit true)) 7.
Proof. apply (getFlag_tests_bit (setFlag runningCPU flagNBit true) 7). lia. Defined.

Lemma setFlag_keeps_other_flags_witness :
  getFlag (setFlag (setFlag runningCPU flagCBit true) flagZBit true) flagCBit
  = getFlag (setFlag runningCPU flagCBit true) flagCBit.
Proof.
  apply (setFlag_keeps_other_flags (setFlag runningCPU flagCBit true)
           flagZBit flagCBit true).
  - reflexivity.
  - reflexivity.
  - vm_compute. discriminate.
  - unfold uint8_ok. change (status _) with 1. lia.
Defined.

Lemma getFlag_union_mask_witness :
  getFlag (setFlag runningCPU flagZBit true) (Z.lor flagCBit flagZBit)
  = getFlag (setFlag runningCPU flagZBit true) flagCBit
    || getFlag (setFlag runningCPU flagZBit true) flagZBit.
Proof.
  assert (Hc : 0 <= flagCBit) by (vm_compute; discriminate).
  assert (Hz : 0 <= flagZBit) by (vm_compute; discriminate).
  exact (proj1 (getFlag_union_mask (setFlag runningCPU flagZBit true)
                  flagCBit flagZBit Hc Hz)).
Defined.

Lemma getFlag_after_setFlag_any_mask_witness :
  getFlag (setFlag runningCPU 0 true) 0 = false
  /\ getFlag (setFlag runningCPU 0x81 true) 0x81 = true
  /\ getFlag (setFlag runningCPU 0x81 false) 0x81 = false.
Proof.
  assert (H0 : uint8_ok 0) by (unfold uint8_ok; lia).
  assert (H81 : uint8_ok 0x81) by (unfold uint8_ok; lia).
  split; [exact (proj1 (getFlag_after_setFlag_any_mask runningCPU 0 H0))|].
  split; [exact (proj1 (getFlag_after_setFlag_any_mask runningCPU 0x81 H81))|].
  exact (proj2 (getFlag_after_setFlag_any_mask runningCPU 0x81 H81)).
Defined.

Lemma setFlag_last_write_wins_witness :
  setFlag (setFlag runningCPU flagIBit true) flagIBit false
  = setFlag runningCPU flagIBit false.
Proof.
  apply (setFlag_last_write_wins runningCPU flagIBit true false).
  - unfold uint8_ok. simpl. lia.
  - unfold uint8_ok. change flagIBit with 4. lia.
Defined.

Lemma setFlag_disjoint_commute_witness :
  setFlag (setFlag runningCPU flagIBit true) 0x81 false
  = setFlag (setFlag runningCPU 0x81 false) flagIBit true.
Proof.
  apply (setFlag_disjoint_commute runningCPU flagIBit 0x81 true false).
  - unfold uint8_ok. simpl. lia.
  - unfold uint8_ok. change flagIBit with 4. lia.
  - unfold uint8_ok. lia.
  - reflexivity.
Defined.

Lemma Tic_without_bus_panics_witness :
  Tic sampleCPU = Err NilDereference.
Proof. apply (Tic_without_bus_panics sampleCPU); reflexivity. Defined.

Lemma Tic_short_table_panics_witness :
  Tic zeroCPU = Err IndexOutOfRange.
Proof.
  apply (Tic_short_table_panics zeroCPU sampleRam).
  - reflexivity.
  - reflexivity.
  - vm_compute. discriminate.
Defined.

Lemma Tic_nil_handler_panics_witness :
  Tic unfilledCPU = Err NilFuncCall.
Proof.
  eapply (Tic_nil_handler_panics unfilledCPU sampleRam).
  - reflexivity.
  - reflexivity.
  - reflexivity.
  - reflexivity.
  - reflexivity.
Defined.

Lemma TicN_counts_down_witness :
  TicN 3 (set_cycles runningCPU 5)
  = Ok (set_cycles (set_cycles runningCPU 5)
          (cycles (set_cycles runningCPU 5) - Z.of_nat 3)).
Proof.
  assert (Hk : Z.of_nat 3 <= cycles (set_cycles runningCPU 5) < 256)
    by (simpl; lia).
  exact (proj1 (TicN_counts_down 3 (set_cycles runningCPU 5) Hk)).
Defined.

Lemma TicN_completes_instruction_witness :
  exists c1,
    Tic (ConnectBus sampleCPU sampleRam) = Ok c1
    /\ TicN (S (Z.to_nat (cycles c1))) (ConnectBus sampleCPU sampleRam)
       = Ok (set_cycles c1 0).
Proof.
  eexists.
  refine ((fun Hstep =>
             conj Hstep (proj1 (TicN_completes_instruction _ _ Hstep))) _).
  reflexivity.
Defined.
